(** * internal/util/K8sUtil.go: the cluster client facade

    A shallow embedding of [K8sUtil] and its methods.  Every method is a short
    straight-line sequence of calls that leave the file (client construction,
    typed API requests, [json.Marshal], [errors.IsNotFound], the logger), so a
    method is embedded as a program over these calls, and a program is run
    against a world that answers them while a trace records each call together
    with its answer. *)

From Stdlib Require Import Strings.Ascii Strings.String Strings.Byte.
From stdpp Require Import base option list strings gmap.

Local Open Scope string_scope.
Local Open Scope list_scope.

(** ** Go values

    A pointer to a resource ([*v1.Namespace], [*v1.ConfigMap], [*v1.Secret])
    is an [option], with [None] for the [nil] the methods return in its place;
    an [error] interface value is an [option error], with [None] for [nil].
    Pointers the file only passes on (the clients, the logger) are opaque
    values, and a [*ClusterConfig] is the record it points to.  A [[]byte] is
    a [list byte]; [[]byte(s)] and [string(b)] are [list_byte_of_string] and
    [string_of_list_byte].  A Go map is a [gmap]. *)

Module metav1.
(** Only the field the file assigns; the others keep Go's zero value. *)
Record ObjectMeta := { Name : string }.
(** [metav1.GetOptions{}] and [metav1.DeleteOptions{}]: the zero values. *)
Inductive GetOptions := GetOptions_zero.
Inductive DeleteOptions := DeleteOptions_zero.
End metav1.

Module v1.
Record Namespace := { Namespace_ObjectMeta : metav1.ObjectMeta }.
Record ConfigMap := {
  ConfigMap_ObjectMeta : metav1.ObjectMeta;
  ConfigMap_Data : gmap string string }.
Record Secret := {
  Secret_ObjectMeta : metav1.ObjectMeta;
  Secret_Data : gmap string (list byte) }.
End v1.

Module schema.
Record GroupVersion := { Group : string; Version : string }.
End schema.

Module runtime.
Inductive Scheme := NewScheme.
End runtime.

Module serializer.
Inductive CodecFactory := NewCodecFactory (scheme : runtime.Scheme).
End serializer.

Module types.
(** [type PatchType string] with the constants of apimachinery. *)
Definition PatchType := string.
Definition JSONPatchType : PatchType := "application/json-patch+json".
Definition MergePatchType : PatchType := "application/merge-patch+json".
End types.

Module rest.
(** The fields of [rest.Config] the file assigns; [Insecure] is the field
    promoted from the embedded TLS client configuration.  [zero] is
    [&rest.Config{}]. *)
Record Config := {
  Host : string;
  APIPath : string;
  GroupVersion : option schema.GroupVersion;
  NegotiatedSerializer : option serializer.CodecFactory;
  BearerToken : string;
  Insecure : bool }.
Definition zero : Config :=
  {| Host := EmptyString; APIPath := EmptyString; GroupVersion := None;
     NegotiatedSerializer := None; BearerToken := EmptyString;
     Insecure := false |}.
Definition set_Host (c : Config) (v : string) : Config :=
  {| Host := v; APIPath := APIPath c; GroupVersion := GroupVersion c;
     NegotiatedSerializer := NegotiatedSerializer c;
     BearerToken := BearerToken c; Insecure := Insecure c |}.
Definition set_APIPath (c : Config) (v : string) : Config :=
  {| Host := Host c; APIPath := v; GroupVersion := GroupVersion c;
     NegotiatedSerializer := NegotiatedSerializer c;
     BearerToken := BearerToken c; Insecure := Insecure c |}.
Definition set_GroupVersion (c : Config) (v : option schema.GroupVersion) : Config :=
  {| Host := Host c; APIPath := APIPath c; GroupVersion := v;
     NegotiatedSerializer := NegotiatedSerializer c;
     BearerToken := BearerToken c; Insecure := Insecure c |}.
Definition set_NegotiatedSerializer (c : Config) (v : option serializer.CodecFactory) : Config :=
  {| Host := Host c; APIPath := APIPath c; GroupVersion := GroupVersion c;
     NegotiatedSerializer := v;
     BearerToken := BearerToken c; Insecure := Insecure c |}.
Definition set_BearerToken (c : Config) (v : string) : Config :=
  {| Host := Host c; APIPath := APIPath c; GroupVersion := GroupVersion c;
     NegotiatedSerializer := NegotiatedSerializer c;
     BearerToken := v; Insecure := Insecure c |}.
Definition set_Insecure (c : Config) (v : bool) : Config :=
  {| Host := Host c; APIPath := APIPath c; GroupVersion := GroupVersion c;
     NegotiatedSerializer := NegotiatedSerializer c;
     BearerToken := BearerToken c; Insecure := v |}.
End rest.

Record ClusterConfig := { Host : string; BearerToken : string }.

(** The types of the libraries whose values the file only passes around. *)
Class GoTypes := {
  error : Type;          (** non-nil values of the interface [error] *)
  dyn : Type;            (** values a caller boxes in an [interface{}] *)
  SugaredLogger : Type;  (** values of [*zap.SugaredLogger] *)
  CoreV1Client : Type;   (** values of [*v12.CoreV1Client] *)
  RESTClient : Type      (** values of [*rest.RESTClient] *)
}.

Section K8sUtil.
Context `{GoTypes}.

(** One operation of a JSON patch; the fields are encoded under the keys
    "op", "path" and "value". *)
Record JsonPatchType := { Op : string; Path : string; Value : dyn }.

(** The two kinds of value the file hands to [json.Marshal]: a
    [map[string]interface{}] and a [[]*JsonPatchType]. *)
Inductive Marshaled :=
  | of_map (data : gmap string dyn)
  | of_patches (patches : list (option JsonPatchType)).

(** The values the file hands to the logger as key/value arguments. *)
Inductive LogArg :=
  | log_string (s : string)
  | log_Namespace (ns : option v1.Namespace)
  | log_error (err : option error).

(** ** Calls that leave the file, indexed by the type of their answer *)
Inductive Call : Type → Type :=
  | v12_NewForConfig (c : rest.Config) : Call (CoreV1Client * option error)
  | rest_RESTClientFor (c : rest.Config) : Call (RESTClient * option error)
  | Namespaces_Get (client : CoreV1Client) (name : string)
    (opts : metav1.GetOptions) : Call (option v1.Namespace * option error)
  | Namespaces_Create (client : CoreV1Client) (ns : option v1.Namespace) :
    Call (option v1.Namespace * option error)
  | Namespaces_Delete (client : CoreV1Client) (name : string)
    (opts : option metav1.DeleteOptions) : Call (option error)
  | ConfigMaps_Get (client : CoreV1Client) (namespace name : string)
    (opts : metav1.GetOptions) : Call (option v1.ConfigMap * option error)
  | ConfigMaps_Update (client : CoreV1Client) (namespace : string)
    (cm : option v1.ConfigMap) : Call (option v1.ConfigMap * option error)
  | ConfigMaps_Patch (client : CoreV1Client) (namespace name : string)
    (pt : types.PatchType) (data : list byte) :
    Call (option v1.ConfigMap * option error)
  | Secrets_Get (client : CoreV1Client) (namespace name : string)
    (opts : metav1.GetOptions) : Call (option v1.Secret * option error)
  | Secrets_Create (client : CoreV1Client) (namespace : string)
    (secret : option v1.Secret) : Call (option v1.Secret * option error)
  | Secrets_Update (client : CoreV1Client) (namespace : string)
    (secret : option v1.Secret) : Call (option v1.Secret * option error)
  | RESTClient_Do_Raw (client : RESTClient) (verb resource namespace : string)
    (body : list byte) : Call (list byte * option error)
  | json_Marshal (v : Marshaled) : Call (list byte * option error)
  | errors_IsNotFound (err : option error) : Call bool
  | Debugw (l : SugaredLogger) (msg : string) (kvs : list (string * LogArg)) :
    Call unit
  | Infow (l : SugaredLogger) (msg : string) (kvs : list (string * LogArg)) :
    Call unit.

(** ** Programs: return, panic with an error, or perform a call and go on
    with its answer *)
Inductive Prog (A : Type) : Type :=
  | Ret (a : A)
  | Panic (v : error)
  | Do {R : Type} (c : Call R) (k : R → Prog A).
Global Arguments Ret {A} a.
Global Arguments Panic {A} v.
Global Arguments Do {A R} c k.

Fixpoint bind {A B} (f : A → Prog B) (p : Prog A) : Prog B :=
  match p with
  | Ret a => f a
  | Panic v => Panic v
  | Do c k => Do c (λ r, bind f (k r))
  end.

Global Instance Prog_ret : MRet Prog := @Ret.
Global Instance Prog_bind : MBind Prog := @bind.

Definition call {R} (c : Call R) : Prog R := Do c Ret.

(** ** Worlds

    A world owns the state of the cluster and answers the calls.  The pure
    library functions do not depend on that state: [json.Marshal] is a
    function of its argument, [errors.IsNotFound] is a function of the error
    and is false on [nil], logging answers nothing. *)
Record World := {
  cluster : Type;
  Marshal : Marshaled → list byte * option error;
  IsNotFound : error → bool;
  serve : ∀ R, Call R → cluster → R * cluster }.

Definition handle (w : World) {R} (c : Call R) (σ : cluster w) : R * cluster w :=
  match c in Call R return R * cluster w with
  | json_Marshal v => (Marshal w v, σ)
  | errors_IsNotFound err =>
      (match err with Some e => IsNotFound w e | None => false end, σ)
  | Debugw _ _ _ => (tt, σ)
  | Infow _ _ _ => (tt, σ)
  | c => serve w _ c σ
  end.

Inductive Event :=
| Ev {R : Type} (c : Call R) (r : R).

Inductive Outcome (A : Type) :=
  | Returned (a : A)
  | Panicked (v : error).
Global Arguments Returned {A} a.
Global Arguments Panicked {A} v.

Fixpoint run (w : World) {A} (p : Prog A) (σ : cluster w) (tr : list Event) :
    Outcome A * cluster w * list Event :=
  match p with
  | Ret a => (Returned a, σ, tr)
  | Panic v => (Panicked v, σ, tr)
  | Do c k => let '(r, σ') := handle w c σ in run w (k r) σ' (tr ++ [Ev c r])
  end.

Definition outcome {w A} (x : Outcome A * cluster w * list Event) : Outcome A := fst (fst x).
Definition trace {w A} (x : Outcome A * cluster w * list Event) : list Event := snd x.

(** ** The methods of K8sUtil.go *)

Record K8sUtil := { logger : SugaredLogger }.

Definition NewK8sUtil (logger : SugaredLogger) : K8sUtil := {| logger := logger |}.

Definition GetClient (impl : K8sUtil) (clusterConfig : ClusterConfig) :
    Prog (CoreV1Client * option error) :=
  let cfg := rest.zero in
  let cfg := rest.set_Host cfg (Host clusterConfig) in
  let cfg := rest.set_BearerToken cfg (BearerToken clusterConfig) in
  let cfg := rest.set_Insecure cfg true in
  '(client, err) ← call (v12_NewForConfig cfg);
  mret (client, err).

Definition checkIfNsExists (impl : K8sUtil) (namespace : string)
    (client : CoreV1Client) : Prog (bool * option error) :=
  '(ns, err) ← call (Namespaces_Get client namespace metav1.GetOptions_zero);
  call (Debugw (logger impl) "ns fetch"
          [("name", log_string namespace); ("res", log_Namespace ns)]);;
  notFound ← call (errors_IsNotFound err);
  if (notFound : bool) then mret (false, None)
  else match err with
       | Some _ => mret (false, err)
       | None => mret (true, None)
       end.

Definition createNs (impl : K8sUtil) (namespace : string)
    (client : CoreV1Client) : Prog (option v1.Namespace * option error) :=
  let nsSpec :=
    Some {| v1.Namespace_ObjectMeta := {| metav1.Name := namespace |} |} in
  '(ns, err) ← call (Namespaces_Create client nsSpec);
  match err with
  | Some _ => mret (None, err)
  | None => mret (ns, None)
  end.

Definition CreateNsIfNotExists (impl : K8sUtil) (namespace : string)
    (clusterConfig : ClusterConfig) : Prog (option error) :=
  '(client, err) ← GetClient impl clusterConfig;
  match err with
  | Some _ => mret err
  | None =>
      '(exists_, err) ← checkIfNsExists impl namespace client;
      match err with
      | Some _ => mret err
      | None =>
          if (exists_ : bool) then mret None
          else
            call (Infow (logger impl) "ns not exists creating"
                    [("ns", log_string namespace)]);;
            '(_, err) ← createNs impl namespace client;
            mret err
      end
  end.

Definition deleteNs (impl : K8sUtil) (namespace : string)
    (client : CoreV1Client) : Prog (option error) :=
  err ← call (Namespaces_Delete client namespace (Some metav1.DeleteOptions_zero));
  mret err.

Definition getargoAppClient (impl : K8sUtil) (clusterConfig : ClusterConfig) :
    Prog (RESTClient * option error) :=
  let config := rest.zero in
  let gv := {| schema.Group := "argoproj.io"; schema.Version := "v1alpha1" |} in
  let config := rest.set_GroupVersion config (Some gv) in
  let config := rest.set_APIPath config "/apis" in
  let config := rest.set_Host config (Host clusterConfig) in
  let config := rest.set_BearerToken config (BearerToken clusterConfig) in
  let config := rest.set_Insecure config true in
  let config :=
    rest.set_NegotiatedSerializer config
      (Some (serializer.NewCodecFactory runtime.NewScheme)) in
  '(client, err) ← call (rest_RESTClientFor config);
  mret (client, err).

Definition CreateArgoApplication (impl : K8sUtil) (namespace application : string)
    (clusterConfig : ClusterConfig) : Prog (option error) :=
  '(client, err) ← getargoAppClient impl clusterConfig;
  match err with
  | Some _ => mret err
  | None =>
      call (Infow (logger impl) "creating application"
              [("req", log_string application)]);;
      '(res, err) ← call (RESTClient_Do_Raw client "POST" "applications" namespace
                            (list_byte_of_string application));
      call (Infow (logger impl) "argo app create res"
              [("res", log_string (string_of_list_byte res));
               ("err", log_error err)]);;
      mret err
  end.

Definition GetConfigMap (impl : K8sUtil) (namespace name : string)
    (clusterConfig : ClusterConfig) : Prog (option v1.ConfigMap * option error) :=
  '(client, err) ← GetClient impl clusterConfig;
  match err with
  | Some _ => mret (None, err)
  | None =>
      '(cm, err) ← call (ConfigMaps_Get client namespace name metav1.GetOptions_zero);
      match err with
      | Some _ => mret (None, err)
      | None => mret (cm, None)
      end
  end.

Definition GetConfigMapFast (impl : K8sUtil) (namespace name : string)
    (client : CoreV1Client) : Prog (option v1.ConfigMap * option error) :=
  '(cm, err) ← call (ConfigMaps_Get client namespace name metav1.GetOptions_zero);
  match err with
  | Some _ => mret (None, err)
  | None => mret (cm, None)
  end.

Definition UpdateConfigMap (impl : K8sUtil) (namespace : string)
    (cm : option v1.ConfigMap) (clusterConfig : ClusterConfig) :
    Prog (option v1.ConfigMap * option error) :=
  '(client, err) ← GetClient impl clusterConfig;
  match err with
  | Some _ => mret (None, err)
  | None =>
      '(cm, err) ← call (ConfigMaps_Update client namespace cm);
      match err with
      | Some _ => mret (None, err)
      | None => mret (cm, None)
      end
  end.

Definition UpdateConfigMapFast (impl : K8sUtil) (namespace : string)
    (cm : option v1.ConfigMap) (client : CoreV1Client) :
    Prog (option v1.ConfigMap * option error) :=
  '(cm, err) ← call (ConfigMaps_Update client namespace cm);
  match err with
  | Some _ => mret (None, err)
  | None => mret (cm, None)
  end.

Definition PatchConfigMap (impl : K8sUtil) (namespace : string)
    (clusterConfig : ClusterConfig) (name : string) (data : gmap string dyn) :
    Prog (option v1.ConfigMap * option error) :=
  '(client, err) ← GetClient impl clusterConfig;
  match err with
  | Some _ => mret (None, err)
  | None =>
      '(b, err) ← call (json_Marshal (of_map data));
      match err with
      | Some e => Panic e
      | None =>
          '(cm, err) ← call (ConfigMaps_Patch client namespace name
                               types.MergePatchType b);
          match err with
          | Some _ => mret (None, err)
          | None => mret (cm, None)
          end
      end
  end.

Definition PatchConfigMapJsonType (impl : K8sUtil) (namespace : string)
    (clusterConfig : ClusterConfig) (name : string) (data : dyn) (path : string) :
    Prog (option v1.ConfigMap * option error) :=
  '(client, err) ← GetClient impl clusterConfig;
  match err with
  | Some _ => mret (None, err)
  | None =>
      let patches : list (option JsonPatchType) := [] in
      let patch := Some {| Op := "replace"; Path := path; Value := data |} in
      let patches := patches ++ [patch] in
      '(b, err) ← call (json_Marshal (of_patches patches));
      match err with
      | Some e => Panic e
      | None =>
          '(cm, err) ← call (ConfigMaps_Patch client namespace name
                               types.JSONPatchType b);
          match err with
          | Some _ => mret (None, err)
          | None => mret (cm, None)
          end
      end
  end.

Definition GetSecretFast (impl : K8sUtil) (namespace name : string)
    (client : CoreV1Client) : Prog (option v1.Secret * option error) :=
  '(cm, err) ← call (Secrets_Get client namespace name metav1.GetOptions_zero);
  match err with
  | Some _ => mret (None, err)
  | None => mret (cm, None)
  end.

Definition CreateSecretFast (impl : K8sUtil) (namespace username password : string)
    (client : CoreV1Client) : Prog (option v1.Secret * option error) :=
  let secret :=
    Some {| v1.Secret_ObjectMeta := {| metav1.Name := "devtron-secret-test" |};
            v1.Secret_Data := ∅ |} in
  '(secret, err) ← call (Secrets_Create client namespace secret);
  match err with
  | Some _ => mret (None, err)
  | None => mret (secret, None)
  end.

Definition UpdateSecretFast (impl : K8sUtil) (namespace : string)
    (cm : option v1.Secret) (client : CoreV1Client) :
    Prog (option v1.Secret * option error) :=
  '(cm, err) ← call (Secrets_Update client namespace cm);
  match err with
  | Some _ => mret (None, err)
  | None => mret (cm, None)
  end.

(** ** Reading a trace *)

(** The configuration that holds a host and a token, has certificate
    verification switched off, and leaves every other field at its zero
    value. *)
Definition insecure_config (host token : string) : rest.Config :=
  {| rest.Host := host; rest.APIPath := EmptyString; rest.GroupVersion := None;
     rest.NegotiatedSerializer := None; rest.BearerToken := token;
     rest.Insecure := true |}.

(** The configuration of a raw client for the Argo CD API group. *)
Definition argo_config (host token : string) : rest.Config :=
  {| rest.Host := host; rest.APIPath := "/apis";
     rest.GroupVersion :=
       Some {| schema.Group := "argoproj.io"; schema.Version := "v1alpha1" |};
     rest.NegotiatedSerializer :=
       Some (serializer.NewCodecFactory runtime.NewScheme);
     rest.BearerToken := token; rest.Insecure := true |}.

(** Client constructions. *)
Definition is_construction (ev : Event) : bool :=
  match ev with
  | Ev (v12_NewForConfig _) _ | Ev (rest_RESTClientFor _) _ => true
  | _ => false
  end.

(** Requests to the namespaces API. *)
Definition is_namespace_call (ev : Event) : bool :=
  match ev with
  | Ev (Namespaces_Get _ _ _) _ | Ev (Namespaces_Create _ _) _
  | Ev (Namespaces_Delete _ _ _) _ => true
  | _ => false
  end.

(** Patch requests. *)
Definition is_patch (ev : Event) : bool :=
  match ev with
  | Ev (ConfigMaps_Patch _ _ _ _ _) _ => true
  | _ => false
  end.

(** Requests sent through a raw REST client. *)
Definition is_raw_request (ev : Event) : bool :=
  match ev with
  | Ev (RESTClient_Do_Raw _ _ _ _ _) _ => true
  | _ => false
  end.

(** The typed client a request is sent through. *)
Definition typed_client (ev : Event) : option CoreV1Client :=
  match ev with
  | Ev (Namespaces_Get c _ _) _ | Ev (Namespaces_Create c _) _
  | Ev (Namespaces_Delete c _ _) _
  | Ev (ConfigMaps_Get c _ _ _) _ | Ev (ConfigMaps_Update c _ _) _
  | Ev (ConfigMaps_Patch c _ _ _ _) _
  | Ev (Secrets_Get c _ _ _) _ | Ev (Secrets_Create c _ _) _
  | Ev (Secrets_Update c _ _) _ => Some c
  | _ => None
  end.

(** The answer of a config map request, and of a secret request. *)
Definition configmap_answer (ev : Event) :
    option (option v1.ConfigMap * option error) :=
  match ev with
  | Ev (ConfigMaps_Get _ _ _ _) r | Ev (ConfigMaps_Update _ _ _) r
  | Ev (ConfigMaps_Patch _ _ _ _ _) r => Some r
  | _ => None
  end.

Definition secret_answer (ev : Event) :
    option (option v1.Secret * option error) :=
  match ev with
  | Ev (Secrets_Get _ _ _ _) r | Ev (Secrets_Create _ _ _) r
  | Ev (Secrets_Update _ _ _) r => Some r
  | _ => None
  end.


(** What the logger was given, in order. *)
Definition logged (ev : Event) : list (string * LogArg) :=
  match ev with
  | Ev (Debugw _ _ kvs) _ | Ev (Infow _ _ kvs) _ => kvs
  | _ => []
  end.

(** client-go's typed clients allocate the result object before they send the
    request, so a typed request that answers a nil error answers a non-nil
    object. *)
Definition typed_answers_non_nil (w : World) : Prop :=
  ∀ (σ : cluster w) R (c : Call R),
    match c in Call R return R → Prop with
    | ConfigMaps_Get _ _ _ _ | ConfigMaps_Update _ _ _
    | ConfigMaps_Patch _ _ _ _ _ => λ r, r.2 = None → is_Some r.1
    | Secrets_Get _ _ _ _ | Secrets_Create _ _ _
    | Secrets_Update _ _ _ => λ r, r.2 = None → is_Some r.1
    | _ => λ _, True
    end (serve w R c σ).1.

(** What the two patch methods do once they hold a client: encode, then
    panic on a failed encoding or send the patch and keep either its error or
    its config map. *)
Definition patch_with (w : World) (client : CoreV1Client) (namespace name : string)
    (pt : types.PatchType) (v : Marshaled) (σ : cluster w) (tr : list Event) :
    Outcome (option v1.ConfigMap * option error) * cluster w * list Event :=
  let '(b, merr) := Marshal w v in
  match merr with
  | Some e => (Panicked e, σ, tr ++ [Ev (json_Marshal v) (b, merr)])
  | None =>
      let patch := ConfigMaps_Patch client namespace name pt b in
      let '((cm, err), σ') := serve w _ patch σ in
      (Returned match err with Some _ => (None, err) | None => (cm, None) end,
       σ',
       tr ++ [Ev (json_Marshal v) (b, None); Ev patch (cm, err)])
  end.

(** ** The properties, as predicates on a run *)

(** No client is built during the run, no raw client is used, and the typed
    requests that are sent all go through [client]: there is exactly one. *)
Definition uses_only {w A} (client : CoreV1Client)
    (r : Outcome A * cluster w * list Event) : Prop :=
  List.filter (λ ev, is_construction ev || is_raw_request ev) (trace r) = [] ∧
  omap typed_client (trace r) = [client].

(** A method that returns a resource together with an error returns a nil
    resource with every error, and with a nil error the resource the last
    request of kind [answer] answered, which is not nil. *)
Definition resource_xor_error {w T}
    (answer : Event → option (option T * option error))
    (r : Outcome (option T * option error) * cluster w * list Event) : Prop :=
  match outcome r with
  | Returned (res, err) =>
      (err ≠ None → res = None) ∧
      (err = None → is_Some res ∧ last (omap answer (trace r)) = Some (res, None))
  | Panicked _ => True
  end.

(** [CreateNsIfNotExists]: the first request to the namespaces API is the
    existence check for [namespace]; if it answers without an error nothing
    else is sent and nil is returned; if it answers a not-found error exactly
    one more request follows, the creation of a namespace named [namespace],
    and its error is returned. *)
Definition checks_then_creates (w : World) (impl : K8sUtil) (namespace : string)
    (clusterConfig : ClusterConfig) (σ : cluster w) : Prop :=
  let r := run w (CreateNsIfNotExists impl namespace clusterConfig) σ [] in
  ∃ client got err rest,
    List.filter is_namespace_call (trace r) =
      Ev (Namespaces_Get client namespace metav1.GetOptions_zero) (got, err) :: rest ∧
    (err = None → outcome r = Returned None ∧ rest = []) ∧
    (∀ e, err = Some e → IsNotFound w e = true →
       ∃ created cerr,
         rest = [Ev (Namespaces_Create client
                       (Some {| v1.Namespace_ObjectMeta := {| metav1.Name := namespace |} |}))
                    (created, cerr)] ∧
         outcome r = Returned cerr).

(** [PatchConfigMap]: when [data] has a JSON encoding [b], one patch request
    is sent, of merge-patch type, with body [b], for [name] in [namespace]. *)
Definition sends_merge_patch (w : World) (impl : K8sUtil) (namespace : string)
    (clusterConfig : ClusterConfig) (name : string) (data : gmap string dyn)
    (σ : cluster w) : Prop :=
  let r := run w (PatchConfigMap impl namespace clusterConfig name data) σ [] in
  ∀ b, Marshal w (of_map data) = (b, None) →
    ∃ client answer,
      List.filter is_patch (trace r) =
        [Ev (ConfigMaps_Patch client namespace name types.MergePatchType b) answer].

(** [PatchConfigMapJsonType]: when the list holding the one operation
    [{op: "replace", path, value}] has a JSON encoding [b], one patch request
    is sent, of JSON-patch type, with body [b]. *)
Definition sends_json_patch (w : World) (impl : K8sUtil) (namespace : string)
    (clusterConfig : ClusterConfig) (name : string) (data : dyn) (path : string)
    (σ : cluster w) : Prop :=
  let r := run w (PatchConfigMapJsonType impl namespace clusterConfig name data path) σ [] in
  ∀ b,
    Marshal w (of_patches [Some {| Op := "replace"; Path := path; Value := data |}])
      = (b, None) →
    ∃ client answer,
      List.filter is_patch (trace r) =
        [Ev (ConfigMaps_Patch client namespace name types.JSONPatchType b) answer].

(** [CreateArgoApplication]: one raw REST client is built, for API path
    "/apis", group "argoproj.io" and version "v1alpha1"; one request is sent
    through it, a POST of the bytes of [application], which read back as
    [application], to "applications" in [namespace]; the last call logs the
    bytes answered; the error answered is what is returned. *)
Definition posts_application (w : World) (impl : K8sUtil)
    (namespace application : string) (clusterConfig : ClusterConfig)
    (σ : cluster w) : Prop :=
  let r := run w (CreateArgoApplication impl namespace application clusterConfig) σ [] in
  ∃ config client cerr body res err,
    List.filter is_construction (trace r) =
      [Ev (rest_RESTClientFor config) (client, cerr)] ∧
    rest.APIPath config = "/apis" ∧
    rest.GroupVersion config =
      Some {| schema.Group := "argoproj.io"; schema.Version := "v1alpha1" |} ∧
    List.filter is_raw_request (trace r) =
      [Ev (RESTClient_Do_Raw client "POST" "applications" namespace body) (res, err)] ∧
    body = list_byte_of_string application ∧
    string_of_list_byte body = application ∧
    (∃ ev, last (trace r) = Some ev ∧
           ("res", log_string (string_of_list_byte res)) ∈ logged ev) ∧
    outcome r = Returned err.

(** ** Further readings of a trace *)


(** The logger a log call went to. *)
Definition log_target (ev : Event) : option SugaredLogger :=
  match ev with
  | Ev (Debugw l _ _) _ | Ev (Infow l _ _) _ => Some l
  | _ => None
  end.

(** How many requests the run sent to the cluster, through a typed client or
    a raw one. *)
Definition requests {w A} (r : Outcome A * cluster w * list Event) : nat :=
  length (omap typed_client (trace r)) +
  length (List.filter is_raw_request (trace r)).

(** No call of the run went to a logger. *)
Definition silent {w A} (r : Outcome A * cluster w * list Event) : Prop :=
  omap log_target (trace r) = [].

(** The run came back to its caller. *)
Definition returns {w A} (r : Outcome A * cluster w * list Event) : Prop :=
  ∃ a, outcome r = Returned a.


(** One client was built in the run, from the host and the token of
    [clusterConfig], and every typed request of the run went through it. *)
Definition builds_one_client {w A} (clusterConfig : ClusterConfig)
    (r : Outcome A * cluster w * list Event) : Prop :=
  ∃ client err,
    List.filter is_construction (trace r) =
      [Ev (v12_NewForConfig
             (insecure_config (Host clusterConfig) (BearerToken clusterConfig)))
          (client, err)] ∧
    Forall (λ used, used = client) (omap typed_client (trace r)).

End K8sUtil.

(** ** A small cluster to run the methods against

    Errors are their messages, a boxed value is a string or something JSON
    cannot encode ([None]), a client is the host it was built for, and the
    state of the cluster is the list of the namespaces that exist.  A host
    with a space in it does not parse, so no client is built for it. *)
Module Fake.

Definition types : GoTypes :=
  {| error := string; dyn := option string; SugaredLogger := unit;
     CoreV1Client := string; RESTClient := string |}.
#[local] Existing Instance types.

Fixpoint has_space (s : string) : bool :=
  match s with
  | EmptyString => false
  | String a s' => if Ascii.eqb a " "%char then true else has_space s'
  end.

Definition construct (cfg : rest.Config) : string * option string :=
  if has_space (rest.Host cfg)
  then (EmptyString, Some "invalid character in host name")
  else (rest.Host cfg, None).

Definition meta (name : string) : metav1.ObjectMeta := {| metav1.Name := name |}.
Definition namespace (name : string) : v1.Namespace :=
  {| v1.Namespace_ObjectMeta := meta name |}.
Definition configmap (name : string) : v1.ConfigMap :=
  {| v1.ConfigMap_ObjectMeta := meta name; v1.ConfigMap_Data := ∅ |}.
Definition secret (name : string) : v1.Secret :=
  {| v1.Secret_ObjectMeta := meta name; v1.Secret_Data := ∅ |}.

(** A request for something inside [ns] answers [found] when the namespace
    exists and a not-found error, next to an empty object, when it does not. *)
Definition within {T} (σ : list string) (ns : string) (empty found : T) :
    (option T * option string) * list string :=
  if bool_decide (ns ∈ σ) then ((Some found, None), σ)
  else ((Some empty, Some "NotFound"), σ).

Definition dq : string := String (Ascii.ascii_of_nat 34) EmptyString.
Definition quoted (s : string) : string := dq +:+ s +:+ dq.

Definition field (kv : string * option string) : option string :=
  match kv.2 with
  | Some v => Some (quoted kv.1 +:+ ":" +:+ quoted v)
  | None => None
  end.

Definition operation (p : option JsonPatchType) : option string :=
  match p with
  | Some {| Op := op; Path := path; Value := Some v |} =>
      Some ("{" +:+ quoted "op" +:+ ":" +:+ quoted op +:+ "," +:+
            quoted "path" +:+ ":" +:+ quoted path +:+ "," +:+
            quoted "value" +:+ ":" +:+ quoted v +:+ "}")
  | _ => None
  end.

Definition marshal (v : Marshaled) : list byte * option string :=
  match v with
  | of_map data =>
      match mapM field (map_to_list data) with
      | Some fs => (list_byte_of_string ("{" +:+ String.concat "," fs +:+ "}"), None)
      | None => ([], Some "json: unsupported type")
      end
  | of_patches patches =>
      match mapM operation patches with
      | Some ops => (list_byte_of_string ("[" +:+ String.concat "," ops +:+ "]"), None)
      | None => ([], Some "json: unsupported type")
      end
  end.

Definition answers R (c : Call R) (σ : list string) : R * list string :=
  match c in Call R return R * list string with
  | v12_NewForConfig cfg => (construct cfg, σ)
  | rest_RESTClientFor cfg => (construct cfg, σ)
  | Namespaces_Get _ name _ => within σ name (namespace EmptyString) (namespace name)
  | Namespaces_Create _ (Some ns) =>
      let name := metav1.Name (v1.Namespace_ObjectMeta ns) in
      if bool_decide (name ∈ σ)
      then ((Some (namespace EmptyString), Some "AlreadyExists"), σ)
      else ((Some ns, None), name :: σ)
  | Namespaces_Create _ None => ((Some (namespace EmptyString), Some "Invalid"), σ)
  | Namespaces_Delete _ name _ =>
      if bool_decide (name ∈ σ) then (None, List.filter (λ n, negb (String.eqb n name)) σ)
      else (Some "NotFound", σ)
  | ConfigMaps_Get _ ns name _ => within σ ns (configmap EmptyString) (configmap name)
  | ConfigMaps_Update _ ns (Some cm) => within σ ns (configmap EmptyString) cm
  | ConfigMaps_Update _ ns None => ((Some (configmap EmptyString), Some "Invalid"), σ)
  | ConfigMaps_Patch _ ns name _ _ => within σ ns (configmap EmptyString) (configmap name)
  | Secrets_Get _ ns name _ => within σ ns (secret EmptyString) (secret name)
  | Secrets_Create _ ns (Some s) => within σ ns (secret EmptyString) s
  | Secrets_Create _ ns None => ((Some (secret EmptyString), Some "Invalid"), σ)
  | Secrets_Update _ ns (Some s) => within σ ns (secret EmptyString) s
  | Secrets_Update _ ns None => ((Some (secret EmptyString), Some "Invalid"), σ)
  | RESTClient_Do_Raw _ _ _ ns body =>
      if bool_decide (ns ∈ σ) then ((body, None), σ) else (([], Some "NotFound"), σ)
  | json_Marshal v => (marshal v, σ)
  | errors_IsNotFound _ => (false, σ)
  | Debugw _ _ _ => (tt, σ)
  | Infow _ _ _ => (tt, σ)
  end.

Definition world : World :=
  {| cluster := list string; Marshal := marshal;
     IsNotFound := λ e, String.eqb e "NotFound"; serve := answers |}.

Definition value (s : string) : @dyn types := Some s.
Definition unencodable : @dyn types := None.

Definition impl : K8sUtil := NewK8sUtil tt.
Definition good : ClusterConfig := {| Host := "https://10.0.0.1:6443"; BearerToken := "t0k3n" |}.
Definition bad : ClusterConfig := {| Host := "not a url"; BearerToken := "t0k3n" |}.

End Fake.

(** ** A cluster that refuses to show its namespaces

    The small cluster, except that every namespace get answers a forbidden
    error. *)
Module Forbidden.
#[local] Existing Instance Fake.types.

Definition answers R (c : Call R) (σ : list string) : R * list string :=
  match c in Call R return R * list string with
  | Namespaces_Get _ _ _ => ((Some (Fake.namespace EmptyString), Some "Forbidden"), σ)
  | c => Fake.answers _ c σ
  end.

Definition world : World :=
  {| cluster := list string; Marshal := Fake.marshal;
     IsNotFound := λ e, String.eqb e "NotFound"; serve := answers |}.

End Forbidden.

(** * Properties *)

Section Properties.
Context `{GoTypes}.
Variable w : World.

(** Ask the cluster, with what [Hnn] says about the answer, and finish. *)
Ltac ask_cluster Hnn :=
  match goal with
  | |- context [serve ?w ?R ?c ?σ] =>
      let Hres := fresh "Hres" in
      pose proof (Hnn σ R c) as Hres;
      destruct (serve w R c σ) as [[? [?|]] ?];
      unfold resource_xor_error, outcome, trace; simpl in *;
      (split; [done|]); [done|]; intros _; split; [by apply Hres|done]
  end.

(** Follow a run through every answer the world can give. *)
Ltac explore :=
  repeat (cbn -[list_byte_of_string string_of_list_byte];
          match goal with
          | |- context [serve ?w ?R ?c ?σ] => destruct (serve w R c σ) as [? ?]
          | |- context [Marshal ?w ?v] => destruct (Marshal w v) as [? ?]
          | |- context [IsNotFound ?w ?e] => destruct (IsNotFound w e) eqn:?
          | |- context [match ?x with (_, _) => _ end] => is_var x; destruct x
          | |- context [match ?x with Some _ => _ | None => _ end] => is_var x; destruct x
          | |- context [if ?b then _ else _] => is_var b; destruct b
          end).

(** ** Running programs *)

Lemma run_bind {A B} (p : Prog A) (f : A → Prog B) (σ : cluster w) tr :
  run w (p ≫= f) σ tr =
  match run w p σ tr with
  | (Returned a, σ', tr') => run w (f a) σ' tr'
  | (Panicked v, σ', tr') => (Panicked v, σ', tr')
  end.
Proof.
  revert σ tr. induction p as [a | v | R c k IH]; intros σ tr.
  - reflexivity.
  - reflexivity.
  - change (run w (Do c k ≫= f) σ tr)
      with (let '(r, σ') := handle w c σ in run w (k r ≫= f) σ' (tr ++ [Ev c r])).
    simpl. destruct (handle w c σ) as [r σ']. apply IH.
Qed.

(** A run only ever adds to the trace it was started with. *)
Lemma run_extends {A} (p : Prog A) (σ : cluster w) tr :
  run w p σ tr =
  let '(o, σ', t) := run w p σ [] in (o, σ', tr ++ t).
Proof.
  revert σ tr. induction p as [a | v | R c k IH]; intros σ tr; simpl.
  - by rewrite app_nil_r.
  - by rewrite app_nil_r.
  - destruct (handle w c σ) as [r σ'].
    rewrite (IH r σ' [Ev c r]), (IH r σ' (tr ++ [Ev c r])).
    destruct (run w (k r) σ' []) as [[o σ''] t]. by rewrite <- app_assoc.
Qed.

Lemma run_call {R} (c : Call R) (σ : cluster w) tr :
  run w (call c) σ tr =
  let '(r, σ') := handle w c σ in (Returned r, σ', tr ++ [Ev c r]).
Proof. reflexivity. Qed.

(** ** Client construction *)

Lemma GetClient_run impl c (σ : cluster w) tr :
  run w (GetClient impl c) σ tr =
  let call := v12_NewForConfig (insecure_config (Host c) (BearerToken c)) in
  let '(r, σ') := serve w _ call σ in
  (Returned r, σ', tr ++ [Ev call r]).
Proof.
  unfold GetClient. rewrite run_bind, run_call. simpl.
  change (rest.set_Insecure _ _) with (insecure_config (Host c) (BearerToken c)).
  by destruct (serve w _ _ σ) as [[client err] σ'].
Qed.

(** C9. [GetClient] makes one call, the client constructor, on a
    configuration that holds exactly the given host and bearer token and has
    certificate verification switched off; it checks nothing itself, and what
    it returns is the constructor's answer as it is, so it returns an error
    exactly when the constructor does. *)
Theorem GetClient_insecure_passthrough impl (c : ClusterConfig) (σ : cluster w) :
  let config :=
    {| rest.Host := Host c; rest.APIPath := EmptyString;
       rest.GroupVersion := None; rest.NegotiatedSerializer := None;
       rest.BearerToken := BearerToken c; rest.Insecure := true |} in
  let built := (serve w _ (v12_NewForConfig config) σ).1 in
  let r := run w (GetClient impl c) σ [] in
  trace r = [Ev (v12_NewForConfig config) built] ∧
  outcome r = Returned built ∧
  (∀ client err, outcome r = Returned (client, err) → (err ≠ None ↔ built.2 ≠ None)).
Proof.
  intros config built r. subst r built config.
  rewrite GetClient_run. unfold insecure_config.
  destruct (serve w _ _ σ) as [[client err] σ'].
  unfold outcome, trace; simpl. repeat split; intros; by simplify_eq.
Qed.

(** ** The namespace check *)

Lemma checkIfNsExists_run impl ns client (σ : cluster w) tr :
  run w (checkIfNsExists impl ns client) σ tr =
  let get := Namespaces_Get client ns metav1.GetOptions_zero in
  let '((got, err), σ') := serve w _ get σ in
  let notFound := match err with Some e => IsNotFound w e | None => false end in
  (Returned (if notFound then (false, None)
             else match err with Some _ => (false, err) | None => (true, None) end),
   σ',
   tr ++ [Ev get (got, err);
          Ev (Debugw (logger impl) "ns fetch"
                [("name", log_string ns); ("res", log_Namespace got)]) tt;
          Ev (errors_IsNotFound err) notFound]).
Proof.
  unfold checkIfNsExists, call. simpl.
  destruct (serve w _ _ σ) as [[got err] σ']. simpl.
  rewrite <- !app_assoc. simpl.
  destruct err as [e|]; simpl; [destruct (IsNotFound w e)|]; reflexivity.
Qed.

(** C2. [checkIfNsExists] classifies the answer of the namespace get: a
    not-found error gives (false, nil), any other error gives (false, that
    error), and no error gives (true, nil). *)
Theorem checkIfNsExists_classifies impl ns client (σ : cluster w) :
  let '(got, err) := (serve w _ (Namespaces_Get client ns metav1.GetOptions_zero) σ).1 in
  outcome (run w (checkIfNsExists impl ns client) σ []) =
  Returned match err with
           | None => (true, None)
           | Some e => if IsNotFound w e then (false, None) else (false, Some e)
           end.
Proof.
  rewrite checkIfNsExists_run. cbv zeta.
  destruct (serve w _ _ σ) as [[got [e|]] σ']; unfold outcome; simpl.
  - by destruct (IsNotFound w e).
  - reflexivity.
Qed.

(** ** Creating a namespace that is not there *)

Lemma createNs_run impl ns client (σ : cluster w) tr :
  run w (createNs impl ns client) σ tr =
  let create :=
    Namespaces_Create client
      (Some {| v1.Namespace_ObjectMeta := {| metav1.Name := ns |} |}) in
  let '((created, err), σ') := serve w _ create σ in
  (Returned match err with Some _ => (None, err) | None => (created, None) end,
   σ', tr ++ [Ev create (created, err)]).
Proof.
  unfold createNs, call. simpl.
  by destruct (serve w _ _ σ) as [[created [e|]] σ'].
Qed.

(** Without a client nothing is asked of the cluster: the constructor's error
    is returned after the one construction call. *)
Lemma CreateNsIfNotExists_without_client impl ns c (σ : cluster w) client e σ' :
  serve w _ (v12_NewForConfig (insecure_config (Host c) (BearerToken c))) σ
    = ((client, Some e), σ') →
  run w (CreateNsIfNotExists impl ns c) σ [] =
  (Returned (Some e), σ',
   [Ev (v12_NewForConfig (insecure_config (Host c) (BearerToken c))) (client, Some e)]).
Proof.
  intros Hbuilt. unfold CreateNsIfNotExists.
  rewrite run_bind, GetClient_run. cbv zeta. by rewrite Hbuilt.
Qed.

(** C1, amended. Whenever the client is built without an error,
    [CreateNsIfNotExists] first asks the namespaces API for [namespace]; if
    that answers no error it returns nil and sends nothing more; if it
    answers a not-found error it sends exactly one creation request, for a
    namespace named [namespace], and returns the error of that request. *)
Theorem CreateNsIfNotExists_checks_then_creates impl ns c (σ : cluster w) :
  snd (fst (serve w _ (v12_NewForConfig (insecure_config (Host c) (BearerToken c))) σ))
    = None →
  checks_then_creates w impl ns c σ.
Proof.
  intros Hbuilt. unfold checks_then_creates, CreateNsIfNotExists.
  rewrite run_bind, GetClient_run. cbv zeta.
  destruct (serve w _ _ σ) as [[client err] σ1]. simpl in Hbuilt. subst err.
  rewrite run_bind, checkIfNsExists_run. cbv zeta.
  destruct (serve w _ _ σ1) as [[got err] σ2].
  exists client, got, err.
  destruct err as [e|]; [destruct (IsNotFound w e) eqn:Hnf|].
  - (* not found: log, then create *)
    simpl. destruct (serve w _ _ σ2) as [[created cerr] σ3].
    exists [Ev (Namespaces_Create client
                  (Some {| v1.Namespace_ObjectMeta := {| metav1.Name := ns |} |}))
               (created, cerr)].
    split; [by destruct cerr|]. split; [done|].
    intros _ _ _. exists created, cerr. destruct cerr; split; reflexivity.
  - (* another error: handed back *)
    simpl. exists []. split; [reflexivity|]. split; [done|].
    intros e' [= <-] Hnf'. congruence.
  - (* found *)
    simpl. exists []. split; [reflexivity|]. split; [done|]. intros; simplify_eq.
Qed.

(** ** Patching a config map *)

Lemma PatchConfigMap_run impl ns c name data (σ : cluster w) :
  run w (PatchConfigMap impl ns c name data) σ [] =
  let build := v12_NewForConfig (insecure_config (Host c) (BearerToken c)) in
  let '((client, err), σ') := serve w _ build σ in
  match err with
  | Some _ => (Returned (None, err), σ', [Ev build (client, err)])
  | None =>
      patch_with w client ns name types.MergePatchType (of_map data) σ'
        [Ev build (client, None)]
  end.
Proof.
  unfold PatchConfigMap, patch_with. rewrite run_bind, GetClient_run. cbv zeta.
  destruct (serve w _ _ σ) as [[client [e|]] σ1]; [reflexivity|]. simpl.
  destruct (Marshal w _) as [b [e|]]; [reflexivity|]. simpl.
  by destruct (serve w _ _ σ1) as [[cm [e|]] σ2].
Qed.

Lemma PatchConfigMapJsonType_run impl ns c name data path (σ : cluster w) :
  run w (PatchConfigMapJsonType impl ns c name data path) σ [] =
  let build := v12_NewForConfig (insecure_config (Host c) (BearerToken c)) in
  let '((client, err), σ') := serve w _ build σ in
  match err with
  | Some _ => (Returned (None, err), σ', [Ev build (client, err)])
  | None =>
      patch_with w client ns name types.JSONPatchType
        (of_patches [Some {| Op := "replace"; Path := path; Value := data |}]) σ'
        [Ev build (client, None)]
  end.
Proof.
  unfold PatchConfigMapJsonType, patch_with. rewrite run_bind, GetClient_run. cbv zeta.
  destruct (serve w _ _ σ) as [[client [e|]] σ1]; [reflexivity|]. simpl.
  destruct (Marshal w _) as [b [e|]]; [reflexivity|]. simpl.
  by destruct (serve w _ _ σ1) as [[cm [e|]] σ2].
Qed.



(** C5, amended. Whenever the client is built without an error and [data]
    has a JSON encoding, [PatchConfigMap] sends one patch request: of
    merge-patch type, with that encoding as its body, for the config map
    [name] in [namespace]. *)
Theorem PatchConfigMap_sends_merge_patch impl ns c name data (σ : cluster w) :
  snd (fst (serve w _ (v12_NewForConfig (insecure_config (Host c) (BearerToken c))) σ))
    = None →
  sends_merge_patch w impl ns c name data σ.
Proof.
  intros Hbuilt b Hb. rewrite PatchConfigMap_run. cbv zeta.
  destruct (serve w _ _ σ) as [[client err] σ1]. simpl in Hbuilt. subst err.
  unfold patch_with. rewrite Hb.
  destruct (serve w _ _ σ1) as [[cm err] σ2].
  by exists client, (cm, err).
Qed.

(** C6, amended. Whenever the client is built without an error and the
    one-element list holding [{op: "replace", path, value}] has a JSON
    encoding, [PatchConfigMapJsonType] sends one patch request: of JSON-patch
    type, with that encoding as its body. *)
Theorem PatchConfigMapJsonType_sends_one_replace impl ns c name data path (σ : cluster w) :
  snd (fst (serve w _ (v12_NewForConfig (insecure_config (Host c) (BearerToken c))) σ))
    = None →
  sends_json_patch w impl ns c name data path σ.
Proof.
  intros Hbuilt b Hb. rewrite PatchConfigMapJsonType_run. cbv zeta.
  destruct (serve w _ _ σ) as [[client err] σ1]. simpl in Hbuilt. subst err.
  unfold patch_with. rewrite Hb.
  destruct (serve w _ _ σ1) as [[cm err] σ2].
  by exists client, (cm, err).
Qed.

(** ** Posting an Argo CD application *)

Lemma getargoAppClient_run impl c (σ : cluster w) tr :
  run w (getargoAppClient impl c) σ tr =
  let build := rest_RESTClientFor (argo_config (Host c) (BearerToken c)) in
  let '(r, σ') := serve w _ build σ in
  (Returned r, σ', tr ++ [Ev build r]).
Proof.
  unfold getargoAppClient. rewrite run_bind, run_call. simpl.
  change (rest.set_NegotiatedSerializer _ _)
    with (argo_config (Host c) (BearerToken c)).
  by destruct (serve w _ _ σ) as [[client err] σ'].
Qed.

(** C8, amended. Whenever the raw client is built without an error,
    [CreateArgoApplication] builds it for API path "/apis", group
    "argoproj.io" and version "v1alpha1", POSTs the bytes of the application
    body to "applications" in [namespace], logs the bytes answered, and
    returns the error answered and nothing else. *)
Theorem CreateArgoApplication_posts_application impl ns app c (σ : cluster w) :
  snd (fst (serve w _ (rest_RESTClientFor (argo_config (Host c) (BearerToken c))) σ))
    = None →
  posts_application w impl ns app c σ.
Proof.
  intros Hbuilt. unfold posts_application, CreateArgoApplication.
  rewrite run_bind, getargoAppClient_run. cbv zeta.
  destruct (serve w _ _ σ) as [[client cerr] σ1]. simpl in Hbuilt. subst cerr.
  cbn -[list_byte_of_string string_of_list_byte].
  destruct (serve w _ _ σ1) as [[res err] σ2].
  exists (argo_config (Host c) (BearerToken c)), client, None,
    (list_byte_of_string app), res, err.
  repeat split.
  - apply string_of_list_byte_of_string.
  - eexists. split; [reflexivity|]. apply list_elem_of_here.
Qed.

Lemma CreateArgoApplication_without_client impl ns app c (σ : cluster w) client e σ' :
  serve w _ (rest_RESTClientFor (argo_config (Host c) (BearerToken c))) σ
    = ((client, Some e), σ') →
  run w (CreateArgoApplication impl ns app c) σ [] =
  (Returned (Some e), σ',
   [Ev (rest_RESTClientFor (argo_config (Host c) (BearerToken c))) (client, Some e)]).
Proof.
  intros Hbuilt. unfold CreateArgoApplication.
  rewrite run_bind, getargoAppClient_run. cbv zeta. by rewrite Hbuilt.
Qed.

(** ** The methods that take a client *)

(** C7. The five methods that take a client build none: the run holds no
    construction call, and its one request goes through the client given. *)
Theorem fast_variants_use_given_client impl ns name cm secret username password
    client (σ : cluster w) :
  uses_only client (run w (GetConfigMapFast impl ns name client) σ []) ∧
  uses_only client (run w (UpdateConfigMapFast impl ns cm client) σ []) ∧
  uses_only client (run w (GetSecretFast impl ns name client) σ []) ∧
  uses_only client (run w (CreateSecretFast impl ns username password client) σ []) ∧
  uses_only client (run w (UpdateSecretFast impl ns secret client) σ []).
Proof.
  unfold uses_only, GetConfigMapFast, UpdateConfigMapFast, GetSecretFast,
    CreateSecretFast, UpdateSecretFast.
  repeat split; simpl;
    match goal with
    | |- context [serve w ?R ?c σ] => by destruct (serve w R c σ) as [[res [e|]] σ']
    end.
Qed.

(** C4. [CreateSecretFast] sends one request: the creation, in [namespace], of
    the secret named "devtron-secret-test" with no data.  The user name and
    the password change neither the request nor what is returned. *)
Theorem CreateSecretFast_fixed_secret impl ns username password client (σ : cluster w) :
  let r := run w (CreateSecretFast impl ns username password client) σ [] in
  let fixed :=
    {| v1.Secret_ObjectMeta := {| metav1.Name := "devtron-secret-test" |};
       v1.Secret_Data := ∅ |} in
  (∃ answer, trace r = [Ev (Secrets_Create client ns (Some fixed)) answer]) ∧
  (∀ username' password',
     run w (CreateSecretFast impl ns username' password' client) σ [] = r).
Proof.
  simpl. split; [|done].
  destruct (serve w _ _ σ) as [[created [e|]] σ']; by eexists.
Qed.

(** ** Resource or error *)

(** The last step of every method that returns a resource: the error decides
    which of the two results is kept. *)
Lemma keeps_resource_or_error {T} (answer : Event → option (option T * option error))
    (σ : cluster w) tr (res : option T) (err : option error) ev :
  answer ev = Some (res, err) →
  (err = None → is_Some res) →
  resource_xor_error answer
    (Returned match err with Some _ => (None, err) | None => (res, None) end,
     σ, tr ++ [ev]).
Proof.
  intros Hev Hres. unfold resource_xor_error, outcome, trace. simpl.
  destruct err as [e|]; (split; [done|]); intros Hnil; [done|].
  split; [by apply Hres|]. by rewrite omap_app, last_app; simpl; rewrite Hev.
Qed.

Lemma patch_with_resource_xor_error client ns name pt v (σ : cluster w) tr :
  typed_answers_non_nil w →
  resource_xor_error configmap_answer (patch_with w client ns name pt v σ tr).
Proof.
  intros Hnn. unfold patch_with.
  destruct (Marshal w v) as [b [e|]]; [done|].
  pose proof (Hnn σ _ (ConfigMaps_Patch client ns name pt b)) as Hres.
  destruct (serve w _ _ σ) as [[cm err] σ'].
  simpl in Hres.
  change [Ev (json_Marshal v) (b, None); Ev (ConfigMaps_Patch client ns name pt b) (cm, err)]
    with ([Ev (json_Marshal v) (b, None)] ++ [Ev (ConfigMaps_Patch client ns name pt b) (cm, err)]).
  rewrite app_assoc. by apply keeps_resource_or_error.
Qed.

(** C10. As long as a typed request that answers no error answers an object
    (as client-go's typed clients do), each of the nine methods that return
    a resource and an error returns exactly one of them: a nil resource next
    to every error, and next to a nil error the resource its request
    answered. *)
Theorem resource_methods_return_one impl ns name c client cm secret data jdata path
    username password (σ : cluster w) :
  typed_answers_non_nil w →
  resource_xor_error configmap_answer (run w (GetConfigMap impl ns name c) σ []) ∧
  resource_xor_error configmap_answer (run w (GetConfigMapFast impl ns name client) σ []) ∧
  resource_xor_error configmap_answer (run w (UpdateConfigMap impl ns cm c) σ []) ∧
  resource_xor_error configmap_answer (run w (UpdateConfigMapFast impl ns cm client) σ []) ∧
  resource_xor_error configmap_answer (run w (PatchConfigMap impl ns c name data) σ []) ∧
  resource_xor_error configmap_answer
    (run w (PatchConfigMapJsonType impl ns c name jdata path) σ []) ∧
  resource_xor_error secret_answer (run w (GetSecretFast impl ns name client) σ []) ∧
  resource_xor_error secret_answer
    (run w (CreateSecretFast impl ns username password client) σ []) ∧
  resource_xor_error secret_answer (run w (UpdateSecretFast impl ns secret client) σ []).
Proof.
  intros Hnn.
  assert (Hfailed : ∀ T (answer : Event → option (option T * option error))
            (σ' : cluster w) tr e,
            resource_xor_error answer (Returned (None, Some e), σ', tr)) by done.
  repeat split.
  - unfold GetConfigMap. rewrite run_bind, GetClient_run. cbv zeta.
    destruct (serve w _ _ σ) as [[cl [e|]] σ1]; [apply Hfailed|]. simpl.
    ask_cluster Hnn.
  - unfold GetConfigMapFast. simpl.
    ask_cluster Hnn.
  - unfold UpdateConfigMap. rewrite run_bind, GetClient_run. cbv zeta.
    destruct (serve w _ _ σ) as [[cl [e|]] σ1]; [apply Hfailed|]. simpl.
    ask_cluster Hnn.
  - unfold UpdateConfigMapFast. simpl.
    ask_cluster Hnn.
  - rewrite PatchConfigMap_run. cbv zeta.
    destruct (serve w _ _ σ) as [[cl [e|]] σ1]; [apply Hfailed|].
    by apply patch_with_resource_xor_error.
  - rewrite PatchConfigMapJsonType_run. cbv zeta.
    destruct (serve w _ _ σ) as [[cl [e|]] σ1]; [apply Hfailed|].
    by apply patch_with_resource_xor_error.
  - unfold GetSecretFast. simpl.
    ask_cluster Hnn.
  - unfold CreateSecretFast. simpl.
    ask_cluster Hnn.
  - unfold UpdateSecretFast. simpl.
    ask_cluster Hnn.
Qed.

(** ** Beyond the single paths: what every run has in common *)



(** X1. When the typed client cannot be built, each method that takes a
    cluster config returns the constructor's error, next to a nil resource,
    after that one call: nothing is encoded, logged or sent, so a patch whose
    data cannot be encoded does not panic either. *)
Theorem nothing_happens_without_client impl ns name c cm data jdata path
    (σ : cluster w) client e σ' :
  serve w _ (v12_NewForConfig (insecure_config (Host c) (BearerToken c))) σ
    = ((client, Some e), σ') →
  let built :=
    [Ev (v12_NewForConfig (insecure_config (Host c) (BearerToken c))) (client, Some e)] in
  run w (CreateNsIfNotExists impl ns c) σ [] = (Returned (Some e), σ', built) ∧
  run w (GetConfigMap impl ns name c) σ [] = (Returned (None, Some e), σ', built) ∧
  run w (UpdateConfigMap impl ns cm c) σ [] = (Returned (None, Some e), σ', built) ∧
  run w (PatchConfigMap impl ns c name data) σ [] = (Returned (None, Some e), σ', built) ∧
  run w (PatchConfigMapJsonType impl ns c name jdata path) σ []
    = (Returned (None, Some e), σ', built).
Proof.
  intros Hbuilt built. subst built.
  unfold CreateNsIfNotExists, GetConfigMap, UpdateConfigMap, PatchConfigMap,
    PatchConfigMapJsonType.
  repeat split; rewrite run_bind, GetClient_run; cbv zeta; by rewrite Hbuilt.
Qed.

(** X14. [getargoAppClient] makes one call, the raw client constructor, on a
    configuration that holds the given host and token, the API path, group
    and version of Argo CD, a codec factory over a new scheme, and has
    certificate verification switched off; it returns the answer as it is. *)
Theorem getargoAppClient_passthrough impl (c : ClusterConfig) (σ : cluster w) :
  let config :=
    {| rest.Host := Host c; rest.APIPath := "/apis";
       rest.GroupVersion :=
         Some {| schema.Group := "argoproj.io"; schema.Version := "v1alpha1" |};
       rest.NegotiatedSerializer :=
         Some (serializer.NewCodecFactory runtime.NewScheme);
       rest.BearerToken := BearerToken c; rest.Insecure := true |} in
  let built := serve w _ (rest_RESTClientFor config) σ in
  run w (getargoAppClient impl c) σ [] =
  (Returned built.1, built.2, [Ev (rest_RESTClientFor config) built.1]).
Proof.
  intros config built. subst built config.
  rewrite getargoAppClient_run. unfold argo_config. simpl.
  by destruct (serve w _ _ σ) as [[client err] σ'].
Qed.

(** X2. When the raw client cannot be built, [CreateArgoApplication] returns
    the constructor's error after that one call: nothing is logged or
    posted. *)
Theorem CreateArgoApplication_stops_without_client impl ns app c (σ : cluster w)
    client e σ' :
  serve w _ (rest_RESTClientFor (argo_config (Host c) (BearerToken c))) σ
    = ((client, Some e), σ') →
  run w (CreateArgoApplication impl ns app c) σ [] =
  (Returned (Some e), σ',
   [Ev (rest_RESTClientFor (argo_config (Host c) (BearerToken c))) (client, Some e)]).
Proof.
  intros Hbuilt. unfold CreateArgoApplication.
  rewrite run_bind, getargoAppClient_run. cbv zeta. by rewrite Hbuilt.
Qed.

(** X3. An error of the existence check that is not a not-found error is
    returned by [CreateNsIfNotExists] as it is: the get is the only request
    to the namespaces API, nothing is created, and the cluster is left as the
    get left it. *)
Theorem CreateNsIfNotExists_hands_back_check_error impl ns c (σ : cluster w)
    client σ1 got e σ2 :
  serve w _ (v12_NewForConfig (insecure_config (Host c) (BearerToken c))) σ
    = ((client, None), σ1) →
  serve w _ (Namespaces_Get client ns metav1.GetOptions_zero) σ1
    = ((got, Some e), σ2) →
  IsNotFound w e = false →
  let r := run w (CreateNsIfNotExists impl ns c) σ [] in
  outcome r = Returned (Some e) ∧
  List.filter is_namespace_call (trace r) =
    [Ev (Namespaces_Get client ns metav1.GetOptions_zero) (got, Some e)] ∧
  r.1.2 = σ2.
Proof.
  intros Hbuilt Hget Hnf r. subst r. unfold CreateNsIfNotExists.
  rewrite run_bind, GetClient_run. cbv zeta. rewrite Hbuilt.
  rewrite run_bind, checkIfNsExists_run. cbv zeta. rewrite Hget, Hnf.
  done.
Qed.

(** X4. Whatever the world answers, the requests [CreateNsIfNotExists] sends
    to the namespaces API are none, or the get of [namespace] alone, or that
    get answering a not-found error followed by one creation of a namespace
    named [namespace]: it never creates without a not-found answer, never
    creates twice and never deletes. *)
Theorem CreateNsIfNotExists_requests impl ns c (σ : cluster w) :
  let r := run w (CreateNsIfNotExists impl ns c) σ [] in
  let requests := List.filter is_namespace_call (trace r) in
  requests = [] ∨
  (∃ client got err,
     requests = [Ev (Namespaces_Get client ns metav1.GetOptions_zero) (got, err)]) ∨
  (∃ client got e created cerr,
     IsNotFound w e = true ∧
     requests =
       [Ev (Namespaces_Get client ns metav1.GetOptions_zero) (got, Some e);
        Ev (Namespaces_Create client
              (Some {| v1.Namespace_ObjectMeta := {| metav1.Name := ns |} |}))
           (created, cerr)]).
Proof.
  intros r requests. subst r requests.
  unfold CreateNsIfNotExists, GetClient, checkIfNsExists, createNs, trace.
  explore; eauto 10.
Qed.

(** X6. A patch method that does not return has sent nothing: when the
    encoding fails the panic comes before any request to the cluster. *)
Theorem patch_panic_sends_nothing impl ns c name data jdata path (σ : cluster w) :
  let merge := run w (PatchConfigMap impl ns c name data) σ [] in
  let json := run w (PatchConfigMapJsonType impl ns c name jdata path) σ [] in
  (returns merge ∨ omap typed_client (trace merge) = []) ∧
  (returns json ∨ omap typed_client (trace json) = []).
Proof.
  intros merge json. subst merge json.
  unfold returns, outcome, trace, PatchConfigMap, PatchConfigMapJsonType, GetClient.
  split; explore; eauto.
Qed.


(** X9. With a client built without an error, [GetConfigMap] and
    [UpdateConfigMap] are the construction followed by [GetConfigMapFast] and
    [UpdateConfigMapFast] on the client just built: same result, same
    requests, same cluster afterwards. *)
Theorem config_methods_wrap_fast_methods impl ns name cm c (σ : cluster w)
    client σ1 :
  serve w _ (v12_NewForConfig (insecure_config (Host c) (BearerToken c))) σ
    = ((client, None), σ1) →
  let built :=
    Ev (v12_NewForConfig (insecure_config (Host c) (BearerToken c))) (client, None) in
  run w (GetConfigMap impl ns name c) σ []
    = run w (GetConfigMapFast impl ns name client) σ1 [built] ∧
  run w (UpdateConfigMap impl ns cm c) σ []
    = run w (UpdateConfigMapFast impl ns cm client) σ1 [built].
Proof.
  intros Hbuilt built. subst built.
  unfold GetConfigMap, UpdateConfigMap.
  split; rewrite run_bind, GetClient_run; cbv zeta; rewrite Hbuilt;
    unfold GetConfigMapFast, UpdateConfigMapFast; explore; reflexivity.
Qed.

(** X10. Every method that takes a cluster config builds exactly one typed
    client per call, from the host and the token of that config with
    certificate verification off, and sends all its requests through the
    client the constructor answered. *)
Theorem config_methods_build_one_client impl ns name cm c data jdata path
    (σ : cluster w) :
  builds_one_client c (run w (GetClient impl c) σ []) ∧
  builds_one_client c (run w (CreateNsIfNotExists impl ns c) σ []) ∧
  builds_one_client c (run w (GetConfigMap impl ns name c) σ []) ∧
  builds_one_client c (run w (UpdateConfigMap impl ns cm c) σ []) ∧
  builds_one_client c (run w (PatchConfigMap impl ns c name data) σ []) ∧
  builds_one_client c (run w (PatchConfigMapJsonType impl ns c name jdata path) σ []).
Proof.
  unfold builds_one_client, trace, CreateNsIfNotExists, checkIfNsExists, createNs,
    GetConfigMap, UpdateConfigMap, PatchConfigMap, PatchConfigMapJsonType, GetClient.
  repeat split; explore;
    (eexists _, _; split; [reflexivity|]; repeat constructor).
Qed.

(** X11. Only [checkIfNsExists], [CreateNsIfNotExists] and
    [CreateArgoApplication] log: the config map and secret methods, the
    client constructors, [createNs] and [deleteNs] never call the logger,
    whatever is answered. *)
Theorem resource_methods_never_log impl ns name c client cm secret data jdata path
    username password (σ : cluster w) :
  silent (run w (GetClient impl c) σ []) ∧
  silent (run w (createNs impl ns client) σ []) ∧
  silent (run w (deleteNs impl ns client) σ []) ∧
  silent (run w (getargoAppClient impl c) σ []) ∧
  silent (run w (GetConfigMap impl ns name c) σ []) ∧
  silent (run w (GetConfigMapFast impl ns name client) σ []) ∧
  silent (run w (UpdateConfigMap impl ns cm c) σ []) ∧
  silent (run w (UpdateConfigMapFast impl ns cm client) σ []) ∧
  silent (run w (PatchConfigMap impl ns c name data) σ []) ∧
  silent (run w (PatchConfigMapJsonType impl ns c name jdata path) σ []) ∧
  silent (run w (GetSecretFast impl ns name client) σ []) ∧
  silent (run w (CreateSecretFast impl ns username password client) σ []) ∧
  silent (run w (UpdateSecretFast impl ns secret client) σ []).
Proof.
  unfold silent, trace, createNs, deleteNs, getargoAppClient, GetConfigMap, GetConfigMapFast,
    UpdateConfigMap, UpdateConfigMapFast, PatchConfigMap, PatchConfigMapJsonType,
    GetSecretFast, CreateSecretFast, UpdateSecretFast, GetClient.
  repeat split; explore; reflexivity.
Qed.

(** X12. Every log call of a [K8sUtil] made by [NewK8sUtil] goes to the
    logger [NewK8sUtil] was given. *)
Theorem logs_go_to_the_given_logger l ns app c client (σ : cluster w) :
  let impl := NewK8sUtil l in
  Forall (λ target, target = l)
    (omap log_target (trace (run w (checkIfNsExists impl ns client) σ []))) ∧
  Forall (λ target, target = l)
    (omap log_target (trace (run w (CreateNsIfNotExists impl ns c) σ []))) ∧
  Forall (λ target, target = l)
    (omap log_target (trace (run w (CreateArgoApplication impl ns app c) σ []))).
Proof.
  intros impl. subst impl.
  unfold trace, CreateNsIfNotExists, checkIfNsExists, createNs, getargoAppClient,
    CreateArgoApplication, GetClient, NewK8sUtil.
  repeat split; explore; repeat constructor.
Qed.

(** X13. With a raw client built without an error, the run of
    [CreateArgoApplication] is: the construction, a log of the whole
    application body, the POST, and a log of the answer, its bytes read as a
    string and its error, also when the POST failed. *)
Theorem CreateArgoApplication_logs_around_post impl ns app c (σ : cluster w) :
  snd (fst (serve w _ (rest_RESTClientFor (argo_config (Host c) (BearerToken c))) σ))
    = None →
  ∃ built client res err,
    trace (run w (CreateArgoApplication impl ns app c) σ []) =
    [built;
     Ev (Infow (logger impl) "creating application" [("req", log_string app)]) tt;
     Ev (RESTClient_Do_Raw client "POST" "applications" ns (list_byte_of_string app))
        (res, err);
     Ev (Infow (logger impl) "argo app create res"
           [("res", log_string (string_of_list_byte res)); ("err", log_error err)]) tt].
Proof.
  intros Hbuilt. unfold CreateArgoApplication.
  rewrite run_bind, getargoAppClient_run. cbv zeta.
  destruct (serve w _ _ σ) as [[client cerr] σ1]. simpl in Hbuilt. subst cerr.
  cbn -[list_byte_of_string string_of_list_byte].
  destruct (serve w _ _ σ1) as [[res err] σ2].
  by eexists _, client, res, err.
Qed.

End Properties.





(** C1, as stated, fails where no client can be built: for a host that does
    not parse the method returns before any request to the namespaces API. *)
Lemma CreateNsIfNotExists_unchecked_without_client :
  ¬ checks_then_creates Fake.world Fake.impl "dev" Fake.bad ["dev"].
Proof.
  intros (client & got & err & rest & Hcalls & _).
  vm_compute in Hcalls. discriminate Hcalls.
Qed.

Lemma CreateNsIfNotExists_checks_then_creates_witness :
  snd (fst (serve Fake.world _
              (v12_NewForConfig
                 (insecure_config (Host Fake.good) (BearerToken Fake.good))) []))
    = None ∧
  checks_then_creates Fake.world Fake.impl "dev" Fake.good [].
Proof.
  split; [reflexivity|].
  apply (CreateNsIfNotExists_checks_then_creates Fake.world Fake.impl "dev" Fake.good []).
  reflexivity.
Defined.

(** C5, as stated, fails where no client can be built: the data encodes, yet
    no patch request is sent. *)
Lemma PatchConfigMap_no_patch_without_client :
  ¬ sends_merge_patch Fake.world Fake.impl "dev" Fake.bad "cm"
      {["k" := Fake.value "v"]} ["dev"].
Proof.
  intros Hsends.
  destruct (Hsends (Marshal Fake.world (of_map {["k" := Fake.value "v"]})).1)
    as (client & answer & Hpatches); [by vm_compute|].
  vm_compute in Hpatches. discriminate Hpatches.
Qed.

Lemma PatchConfigMap_sends_merge_patch_witness :
  snd (fst (serve Fake.world _
              (v12_NewForConfig
                 (insecure_config (Host Fake.good) (BearerToken Fake.good))) ["dev"]))
    = None ∧
  Marshal Fake.world (of_map {["k" := Fake.value "v"]})
    = (list_byte_of_string ("{" +:+ Fake.quoted "k" +:+ ":" +:+ Fake.quoted "v" +:+ "}"), None) ∧
  sends_merge_patch Fake.world Fake.impl "dev" Fake.good "cm" {["k" := Fake.value "v"]} ["dev"].
Proof.
  split; [reflexivity|]. split; [by vm_compute|].
  apply (PatchConfigMap_sends_merge_patch Fake.world Fake.impl "dev" Fake.good "cm"
           {["k" := Fake.value "v"]} ["dev"]).
  reflexivity.
Defined.

(** C6, as stated, fails where no client can be built: the operation
    encodes, yet no patch request is sent. *)
Lemma PatchConfigMapJsonType_no_patch_without_client :
  ¬ sends_json_patch Fake.world Fake.impl "dev" Fake.bad "cm" (Fake.value "v") "/data/k" ["dev"].
Proof.
  intros Hsends.
  destruct (Hsends
              (Marshal Fake.world
                 (of_patches [Some {| Op := "replace"; Path := "/data/k";
                                      Value := Fake.value "v" |}])).1)
    as (client & answer & Hpatches); [by vm_compute|].
  vm_compute in Hpatches. discriminate Hpatches.
Qed.

Lemma PatchConfigMapJsonType_sends_one_replace_witness :
  snd (fst (serve Fake.world _
              (v12_NewForConfig
                 (insecure_config (Host Fake.good) (BearerToken Fake.good))) ["dev"]))
    = None ∧
  snd (Marshal Fake.world
         (of_patches [Some {| Op := "replace"; Path := "/data/k"; Value := Fake.value "v" |}]))
    = None ∧
  sends_json_patch Fake.world Fake.impl "dev" Fake.good "cm" (Fake.value "v") "/data/k" ["dev"].
Proof.
  split; [reflexivity|]. split; [reflexivity|].
  apply (PatchConfigMapJsonType_sends_one_replace Fake.world Fake.impl "dev" Fake.good
           "cm" (Fake.value "v") "/data/k" ["dev"]).
  reflexivity.
Defined.

(** C8, as stated, fails where no raw client can be built: nothing is posted. *)
Lemma CreateArgoApplication_no_post_without_client :
  ¬ posts_application Fake.world Fake.impl "dev" "kind: Application" Fake.bad ["dev"].
Proof.
  intros (config & client & cerr & body & res & err & _ & _ & _ & Hposts & _).
  vm_compute in Hposts. discriminate Hposts.
Qed.

Lemma CreateArgoApplication_posts_application_witness :
  snd (fst (serve Fake.world _
              (rest_RESTClientFor
                 (argo_config (Host Fake.good) (BearerToken Fake.good))) ["dev"]))
    = None ∧
  posts_application Fake.world Fake.impl "dev" "kind: Application" Fake.good ["dev"].
Proof.
  split; [reflexivity|].
  apply (CreateArgoApplication_posts_application Fake.world Fake.impl "dev"
           "kind: Application" Fake.good ["dev"]).
  reflexivity.
Defined.

Lemma resource_methods_return_one_witness :
  typed_answers_non_nil Fake.world ∧
  resource_xor_error configmap_answer
    (run Fake.world (GetConfigMap Fake.impl "dev" "cm" Fake.good) ["dev"] []) ∧
  resource_xor_error configmap_answer
    (run Fake.world (GetConfigMapFast Fake.impl "dev" "cm" "10.0.0.1") ["dev"] []) ∧
  resource_xor_error configmap_answer
    (run Fake.world (UpdateConfigMap Fake.impl "dev" (Some (Fake.configmap "cm")) Fake.good)
       ["dev"] []) ∧
  resource_xor_error configmap_answer
    (run Fake.world (UpdateConfigMapFast Fake.impl "dev" (Some (Fake.configmap "cm")) "10.0.0.1")
       ["dev"] []) ∧
  resource_xor_error configmap_answer
    (run Fake.world (PatchConfigMap Fake.impl "dev" Fake.good "cm" {["k" := Fake.value "v"]})
       ["dev"] []) ∧
  resource_xor_error configmap_answer
    (run Fake.world
       (PatchConfigMapJsonType Fake.impl "dev" Fake.good "cm" (Fake.value "v") "/data/k")
       ["dev"] []) ∧
  resource_xor_error secret_answer
    (run Fake.world (GetSecretFast Fake.impl "dev" "cm" "10.0.0.1") ["dev"] []) ∧
  resource_xor_error secret_answer
    (run Fake.world (CreateSecretFast Fake.impl "dev" "admin" "hunter2" "10.0.0.1") ["dev"] []) ∧
  resource_xor_error secret_answer
    (run Fake.world (UpdateSecretFast Fake.impl "dev" (Some (Fake.secret "creds")) "10.0.0.1")
       ["dev"] []).
Proof.
  assert (Hnn : typed_answers_non_nil Fake.world).
  { intros σ R c.
    destruct c as [| | | | |? ns ? ?|? ns [cm|]|? ns ? ? ?|? ns ? ?|? ns [s|]|? ns [s|]| | | | |];
      simpl; try exact I; unfold Fake.within;
      try (destruct (bool_decide _)); simpl; intros Herr;
      first [discriminate Herr | eexists; reflexivity]. }
  split; [exact Hnn|].
  apply (resource_methods_return_one Fake.world Fake.impl "dev" "cm" Fake.good "10.0.0.1"
           (Some (Fake.configmap "cm")) (Some (Fake.secret "creds"))
           {["k" := Fake.value "v"]} (Fake.value "v") "/data/k" "admin" "hunter2" ["dev"]).
  exact Hnn.
Defined.

(** ** Runs on the small cluster *)

Section SmallCluster.
#[local] Existing Instance Fake.types.

Example CreateNsIfNotExists_creates_missing :
  run Fake.world (CreateNsIfNotExists Fake.impl "dev" Fake.good) ["prod"] [] =
  (Returned None, ["dev"; "prod"],
   [Ev (v12_NewForConfig (insecure_config (Host Fake.good) (BearerToken Fake.good)))
       (Host Fake.good, None);
    Ev (Namespaces_Get (Host Fake.good) "dev" metav1.GetOptions_zero)
       (Some (Fake.namespace EmptyString), Some "NotFound");
    Ev (Debugw tt "ns fetch"
          [("name", log_string "dev");
           ("res", log_Namespace (Some (Fake.namespace EmptyString)))]) tt;
    Ev (errors_IsNotFound (Some "NotFound")) true;
    Ev (Infow tt "ns not exists creating" [("ns", log_string "dev")]) tt;
    Ev (Namespaces_Create (Host Fake.good) (Some (Fake.namespace "dev")))
       (Some (Fake.namespace "dev"), None)]).
Proof. reflexivity. Qed.

Example CreateNsIfNotExists_skips_existing :
  outcome (run Fake.world (CreateNsIfNotExists Fake.impl "dev" Fake.good) ["dev"] [])
    = Returned None ∧
  omap typed_client
    (trace (run Fake.world (CreateNsIfNotExists Fake.impl "dev" Fake.good) ["dev"] []))
    = [Host Fake.good].
Proof. split; reflexivity. Qed.

Example PatchConfigMap_panics_on_unencodable :
  outcome (run Fake.world
             (PatchConfigMap Fake.impl "dev" Fake.good "cm" {["k" := Fake.unencodable]})
             ["dev"] [])
    = Panicked "json: unsupported type".
Proof. by vm_compute. Qed.

Example PatchConfigMapJsonType_panics_on_unencodable :
  outcome (run Fake.world
             (PatchConfigMapJsonType Fake.impl "dev" Fake.good "cm" Fake.unencodable "/data/k")
             ["dev"] [])
    = Panicked "json: unsupported type".
Proof. by vm_compute. Qed.

Example GetConfigMap_drops_object_on_error :
  run Fake.world (GetConfigMapFast Fake.impl "gone" "cm" "10.0.0.1") ["dev"] [] =
  (Returned (None, Some "NotFound"), ["dev"],
   [Ev (ConfigMaps_Get "10.0.0.1" "gone" "cm" metav1.GetOptions_zero)
       (Some (Fake.configmap EmptyString), Some "NotFound")]).
Proof. reflexivity. Qed.

End SmallCluster.

(** ** Further runs on the small clusters *)

Section FurtherRuns.
#[local] Existing Instance Fake.types.

Lemma nothing_happens_without_client_witness :
  serve Fake.world _
    (v12_NewForConfig (insecure_config (Host Fake.bad) (BearerToken Fake.bad))) ["dev"]
    = ((EmptyString, Some "invalid character in host name"), ["dev"]) ∧
  run Fake.world
    (PatchConfigMap Fake.impl "dev" Fake.bad "cm" {["k" := Fake.unencodable]}) ["dev"] []
    = (Returned (None, Some "invalid character in host name"), ["dev"],
       [Ev (v12_NewForConfig (insecure_config (Host Fake.bad) (BearerToken Fake.bad)))
           (EmptyString, Some "invalid character in host name")]).
Proof.
  split; [reflexivity|].
  apply (nothing_happens_without_client Fake.world Fake.impl "dev" "cm" Fake.bad
           (Some (Fake.configmap "cm")) {["k" := Fake.unencodable]} Fake.unencodable
           "/data/k" ["dev"] EmptyString "invalid character in host name" ["dev"]).
  reflexivity.
Defined.

Lemma CreateArgoApplication_stops_without_client_witness :
  serve Fake.world _
    (rest_RESTClientFor (argo_config (Host Fake.bad) (BearerToken Fake.bad))) ["dev"]
    = ((EmptyString, Some "invalid character in host name"), ["dev"]) ∧
  run Fake.world (CreateArgoApplication Fake.impl "dev" "kind: Application" Fake.bad)
    ["dev"] []
    = (Returned (Some "invalid character in host name"), ["dev"],
       [Ev (rest_RESTClientFor (argo_config (Host Fake.bad) (BearerToken Fake.bad)))
           (EmptyString, Some "invalid character in host name")]).
Proof.
  split; [reflexivity|].
  apply (CreateArgoApplication_stops_without_client Fake.world Fake.impl "dev"
           "kind: Application" Fake.bad ["dev"]).
  reflexivity.
Defined.

Lemma CreateNsIfNotExists_hands_back_check_error_witness :
  let r := run Forbidden.world (CreateNsIfNotExists Fake.impl "dev" Fake.good) ["prod"] [] in
  IsNotFound Forbidden.world "Forbidden" = false ∧
  outcome r = Returned (Some "Forbidden") ∧
  List.filter is_namespace_call (trace r) =
    [Ev (Namespaces_Get (Host Fake.good) "dev" metav1.GetOptions_zero)
        (Some (Fake.namespace EmptyString), Some "Forbidden")] ∧
  r.1.2 = ["prod"].
Proof.
  split; [reflexivity|].
  apply (CreateNsIfNotExists_hands_back_check_error Forbidden.world Fake.impl "dev"
           Fake.good ["prod"] (Host Fake.good) ["prod"]
           (Some (Fake.namespace EmptyString)) "Forbidden" ["prod"]);
    reflexivity.
Defined.

Lemma config_methods_wrap_fast_methods_witness :
  let built :=
    Ev (v12_NewForConfig (insecure_config (Host Fake.good) (BearerToken Fake.good)))
       (Host Fake.good, None) in
  serve Fake.world _
    (v12_NewForConfig (insecure_config (Host Fake.good) (BearerToken Fake.good))) ["dev"]
    = ((Host Fake.good, None), ["dev"]) ∧
  run Fake.world (GetConfigMap Fake.impl "dev" "cm" Fake.good) ["dev"] []
    = run Fake.world (GetConfigMapFast Fake.impl "dev" "cm" (Host Fake.good)) ["dev"] [built] ∧
  run Fake.world (UpdateConfigMap Fake.impl "dev" (Some (Fake.configmap "cm")) Fake.good)
    ["dev"] []
    = run Fake.world
        (UpdateConfigMapFast Fake.impl "dev" (Some (Fake.configmap "cm")) (Host Fake.good))
        ["dev"] [built].
Proof.
  split; [reflexivity|].
  apply (config_methods_wrap_fast_methods Fake.world Fake.impl "dev" "cm"
           (Some (Fake.configmap "cm")) Fake.good ["dev"] (Host Fake.good) ["dev"]).
  reflexivity.
Defined.

Lemma CreateArgoApplication_logs_around_post_witness :
  snd (fst (serve Fake.world _
              (rest_RESTClientFor
                 (argo_config (Host Fake.good) (BearerToken Fake.good))) []))
    = None ∧
  ∃ built client res err,
    trace (run Fake.world
             (CreateArgoApplication Fake.impl "dev" "kind: Application" Fake.good) [] []) =
    [built;
     Ev (Infow (logger Fake.impl) "creating application"
           [("req", log_string "kind: Application")]) tt;
     Ev (RESTClient_Do_Raw client "POST" "applications" "dev"
           (list_byte_of_string "kind: Application")) (res, err);
     Ev (Infow (logger Fake.impl) "argo app create res"
           [("res", log_string (string_of_list_byte res)); ("err", log_error err)]) tt].
Proof.
  split; [reflexivity|].
  apply (CreateArgoApplication_logs_around_post Fake.world Fake.impl "dev"
           "kind: Application" Fake.good []).
  reflexivity.
Defined.

End FurtherRuns.
